(** * bonds-cli: the command-line front end of konimarti/bonds

    A shallow embedding of [cmds/bonds-cli/main.go] together with the parts
    of the valuation engine that the front end calls.  The front end is
    embedded statement by statement in a small trace monad: every file read,
    every log or report line and every call into the engine is recorded as an
    event, so that ordering properties of a run can be stated on its trace.

    The engine packages ([bonds], [pkg/bond], [pkg/maturity], [pkg/term]) are
    not part of the sources at hand.  Towards the front end they appear as an
    interface ([CLI.Core]); where a property is about the engine itself, the
    engine is modelled from the design document and every such definition
    says so in its comment. *)

From Stdlib Require Import ZArith List String Ascii Bool Lia.
From Stdlib Require Import Strings.Byte.
From Stdlib Require Import PrimFloat Uint63.
From Stdlib Require Import Reals Lra.
Import ListNotations.

Set Implicit Arguments.

(* ================================================================== *)
(** * Go values shared by all packages *)

Definition float64 : Set := float.

(** Go's [error] values.  The five named errors are the taxonomy of the
    design document (section 7); [GoError] stands for an error of the Go
    standard library (file system, JSON decoding, date parsing). *)
Inductive error : Set :=
| UnsupportedConventionError
| InvalidCurveError
| InvalidScheduleError
| NoRootError
| ConvergenceError
| GoError (msg : string).

(** What a call of a Go function yields: it returns a value, or it does not
    return because it panics with an error. *)
Inductive outcome (A : Type) : Type :=
| Value (a : A)
| Raise (e : error).
Arguments Value {A} a.
Arguments Raise {A} e.

Definition obind {A B : Type} (o : outcome A) (f : A -> outcome B) : outcome B :=
  match o with
  | Value a => f a
  | Raise e => Raise e
  end.

(* ================================================================== *)
(** * Package time, as far as the layout 2006-01-02 shows it *)

Module GoTime.

(** A [time.Time] seen through the layout ["2006-01-02"]: the program only
    ever formats and parses with this layout, so the calendar date is all
    it observes of a time. *)
Record Time : Set := mkTime { year : Z; month : Z; day : Z }.

(** The zero [time.Time] (January 1, year 1), returned with a parse error. *)
Definition zeroTime : Time := mkTime 1 1 1.

Definition isLeap (y : Z) : bool :=
  ((y mod 4 =? 0) && (negb (y mod 100 =? 0) || (y mod 400 =? 0)))%Z.

Definition daysIn (y m : Z) : Z :=
  (if m =? 2 then (if isLeap y then 29 else 28)
   else if (m =? 4) || (m =? 6) || (m =? 9) || (m =? 11) then 30
   else 31)%Z.

Definition digit (n : Z) : ascii := ascii_of_nat (48 + Z.to_nat (n mod 10)).

Definition pad2 (n : Z) : string :=
  String (digit (n / 10)) (String (digit n) EmptyString).

Definition pad4 (n : Z) : string :=
  String (digit (n / 1000)) (String (digit (n / 100)) (pad2 n)).

(** [t.Format("2006-01-02")], for years 0 to 9999. *)
Definition Format (t : Time) : string :=
  (pad4 (year t) ++ "-" ++ pad2 (month t) ++ "-" ++ pad2 (day t))%string.

Definition digitVal (c : ascii) : option Z :=
  let n := Z.of_nat (nat_of_ascii c) in
  if ((48 <=? n) && (n <=? 57))%Z then Some (n - 48)%Z else None.

Fixpoint atoi (acc : Z) (cs : list ascii) : option Z :=
  match cs with
  | [] => Some acc
  | c :: cs' =>
      match digitVal c with
      | Some d => atoi (10 * acc + d)%Z cs'
      | None => None
      end
  end.

Definition parseError : error := GoError "parsing time: cannot parse".
Definition rangeError : error := GoError "parsing time: out of range".

(** [time.Parse("2006-01-02", value)]: four digits, a dash, two digits, a
    dash, two digits and nothing else; the month must be 1 to 12 and the
    day must exist in that month. *)
Definition Parse (value : string) : Time * option error :=
  match list_ascii_of_string value with
  | [y1; y2; y3; y4; s1; m1; m2; s2; d1; d2] =>
      if (Ascii.eqb s1 "-" && Ascii.eqb s2 "-")%bool then
        match atoi 0 [y1; y2; y3; y4], atoi 0 [m1; m2], atoi 0 [d1; d2] with
        | Some y, Some m, Some d =>
            if ((1 <=? m) && (m <=? 12) && (1 <=? d) && (d <=? daysIn y m))%Z
            then (mkTime y m d, None)
            else (zeroTime, Some rangeError)
        | _, _, _ => (zeroTime, Some parseError)
        end
      else (zeroTime, Some parseError)
  | _ => (zeroTime, Some parseError)
  end.

(** [t.AddDate(years, 0, 0)]: the year is moved and a day that does not
    exist in the new year (February 29) rolls over into the next month. *)
Definition AddDate (t : Time) (years : Z) : Time :=
  let y := (year t + years)%Z in
  if (day t <=? daysIn y (month t))%Z then mkTime y (month t) (day t)
  else mkTime y (month t + 1) (day t - daysIn y (month t)).

Definition compare (a b : Time) : comparison :=
  match (year a ?= year b)%Z with
  | Eq => match (month a ?= month b)%Z with
          | Eq => (day a ?= day b)%Z
          | c => c
          end
  | c => c
  end.

(** [a.Before(b)] or [a.Equal(b)]. *)
Definition leb (a b : Time) : bool :=
  match compare a b with Gt => false | _ => true end.

(** [a.Before(b)]. *)
Definition ltb (a b : Time) : bool :=
  match compare a b with Lt => true | _ => false end.

End GoTime.

(* ================================================================== *)
(** * The data the front end hands to the engine *)

(** [maturity.T], with the fields the composite literal in [main] sets. *)
Module maturity.
Record T : Set := mkT {
  Settlement : GoTime.Time;
  Maturity : GoTime.Time;
  Frequency : Z;
  Basis : string
}.
End maturity.

(** [bond.Straight], with the fields the composite literal in [main] sets. *)
Module bond.
Record Straight : Set := mkStraight {
  Schedule : maturity.T;
  Coupon : float64;
  Redemption : float64
}.
End bond.

Module term.
(** Modelled from the spec: the declaration of [term.NelsonSiegelSvensson]
    (pkg/term) is missing.  Section 3 of the design document gives it six
    real-valued parameters, beta0 to beta3 and tau1, tau2. *)
Record NelsonSiegelSvensson : Set := mkNSS {
  B0 : float64; B1 : float64; B2 : float64; B3 : float64;
  T1 : float64; T2 : float64
}.

(** The composite literal [term.NelsonSiegelSvensson{}], also the value of
    [var nss term.NelsonSiegelSvensson] before it is decoded into. *)
Definition zero : NelsonSiegelSvensson := mkNSS 0%float 0%float 0%float 0%float 0%float 0%float.
End term.

(* ================================================================== *)
(** * The front end: cmds/bonds-cli/main.go *)

Module CLI.

Import GoTime.

(** An argument of [fmt.Println], [fmt.Printf] or [log.Println]. *)
Inductive value : Set :=
| VString (s : string)
| VFloat (f : float64)
| VInt (n : Z)
| VError (e : error).

(** What a run does, in program order.  A call into the engine is recorded
    with its arguments and with what it yielded. *)
Inductive event : Type :=
| ReadFile (name : string) (data : list byte) (err : option error)
| LogPrintln (v : value)
| LogFatal (e : error)
| Println (args : list value)
| Printf (format : string) (args : list value)
| CallPricing (b : bond.Straight) (spread : float64)
    (nss : term.NelsonSiegelSvensson) (r : outcome (float64 * float64))
| CallYearsToMaturity (b : bond.Straight) (r : outcome float64)
| CallDuration (b : bond.Straight) (spread : float64)
    (nss : term.NelsonSiegelSvensson) (r : outcome float64)
| CallAccrued (b : bond.Straight) (r : outcome float64)
| CallIRR (price : float64) (b : bond.Straight)
    (r : outcome (float64 * option error))
| CallSpread (price : float64) (b : bond.Straight)
    (nss : term.NelsonSiegelSvensson) (r : outcome (float64 * option error)).

(** How [main] ends other than by reaching its last statement: the early
    [return], [os.Exit(1)] after [log.Fatal], or a panic. *)
Inductive exit : Set :=
| Return
| Exit1
| Panicked (e : error).

(** The trace monad: the events so far, and a value or the way the run ended. *)
Definition M (A : Type) : Type := (list event * (A + exit))%type.

Definition ret {A : Type} (a : A) : M A := ([], inl a).

Definition bind {A B : Type} (m : M A) (k : A -> M B) : M B :=
  match m with
  | (t, inl a) => let (t', r) := k a in ((t ++ t')%list, r)
  | (t, inr x) => (t, inr x)
  end.

Notation "x <- m ;; k" := (bind m (fun x => k))
  (at level 61, m at next level, right associativity).
Notation "' pat <- m ;; k" := (bind m (fun x => match x with pat => k end))
  (at level 61, pat pattern, m at next level, right associativity).
Notation "m ;;; k" := (bind m (fun _ => k))
  (at level 61, right associativity).

Definition emit (e : event) : M unit := ([e], inl tt).

Definition stop {A : Type} (x : exit) : M A := ([], inr x).

Definition trace {A : Type} (m : M A) : list event := fst m.

Definition result {A : Type} (m : M A) : A + exit := snd m.

(** A call into the engine: the call is recorded; a panic ends the run. *)
Definition call {A : Type} (ev : outcome A -> event) (r : outcome A) : M A :=
  match r with
  | Value a => ([ev r], inl a)
  | Raise e => ([ev r], inr (Panicked e))
  end.

Definition logPrintln (v : value) : M unit := emit (LogPrintln v).

(** [log.Fatal(err)]: the error is logged and the process exits with 1. *)
Definition logFatal {A : Type} (e : error) : M A := ([LogFatal e], inr Exit1).

Definition fmtPrintln (args : list value) : M unit := emit (Println args).

Definition fmtPrintf (format : string) (args : list value) : M unit :=
  emit (Printf format args).

(** Go's [panic(err)]. *)
Definition panic {A : Type} (e : error) : M A := stop (Panicked e).

Local Open Scope string_scope.

(** The surroundings of a run: the clock read by the two flag defaults, the
    file system behind [ioutil.ReadFile], and [encoding/json] at the type
    [term.NelsonSiegelSvensson] (whose field tags are declared in pkg/term).
    [jsonUnmarshal data v] is [json.Unmarshal(data, &v)]: it yields the value
    that [v] holds afterwards and the error. *)
Record Env : Type := mkEnv {
  now1 : Time;
  now2 : Time;
  ioutilReadFile : string -> list byte * option error;
  jsonUnmarshal : list byte -> term.NelsonSiegelSvensson ->
                  term.NelsonSiegelSvensson * option error;
  jsonMarshalIndent : term.NelsonSiegelSvensson -> string -> string ->
                      list byte * option error
}.

(** The engine as [main] calls it: [bond.Straight]'s methods [Pricing],
    [YearsToMaturity], [Duration] and [Accrued], and [bonds.IRR] and
    [bonds.Spread].  The bond and the curve are passed by reference in the
    source; the design document (section 3) makes every query a pure function
    of its arguments, so they are passed as values here. *)
Record Core : Type := mkCore {
  Pricing : bond.Straight -> float64 -> term.NelsonSiegelSvensson ->
            outcome (float64 * float64);
  YearsToMaturity : bond.Straight -> outcome float64;
  Duration : bond.Straight -> float64 -> term.NelsonSiegelSvensson ->
             outcome float64;
  Accrued : bond.Straight -> outcome float64;
  IRR : float64 -> bond.Straight -> outcome (float64 * option error);
  Spread : float64 -> bond.Straight -> term.NelsonSiegelSvensson ->
           outcome (float64 * option error)
}.

(** The command line after package [flag] has split and converted it: for
    each flag, the value given, or [None] when the flag is absent. *)
Record CmdLine : Set := mkCmdLine {
  argSettlement : option string;
  argMaturity : option string;
  argCoupon : option float64;
  argN : option Z;
  argQuote : option float64;
  argRedemption : option float64;
  argSpread : option float64;
  argF : option string;
  argDaycount : option string
}.

(** The package-level flag variables after [flag.Parse()]. *)
Record Flags : Set := mkFlags {
  settlementFlag : string;
  maturityFlag : string;
  coupon : float64;
  frequency : Z;
  price : float64;
  redemption : float64;
  spread : float64;
  fileFlag : string;
  daycountname : string
}.

Definition orDefault {A : Type} (o : option A) (d : A) : A :=
  match o with
  | Some a => a
  | None => d
  end.

(** The [var (...)] block with its defaults, followed by [flag.Parse()]. *)
Definition flagParse (env : Env) (cl : CmdLine) : Flags :=
  {| settlementFlag := orDefault (argSettlement cl) (Format (now1 env));
     maturityFlag := orDefault (argMaturity cl) (Format (AddDate (now2 env) 1));
     coupon := orDefault (argCoupon cl) 0.0%float;
     frequency := orDefault (argN cl) 1%Z;
     price := orDefault (argQuote cl) 0.0%float;
     redemption := orDefault (argRedemption cl) 100.0%float;
     spread := orDefault (argSpread cl) 0.0%float;
     fileFlag := orDefault (argF cl) "term.json";
     daycountname := orDefault (argDaycount cl) "30E360" |}.

(** The second half of [main]: from the choice of the target price on. *)
Definition yields (core : Core) (fl : Flags) (b : bond.Straight)
    (nss : term.NelsonSiegelSvensson) (clean : float64) : M unit :=
  let bondPrice := if (0.0 <? price fl)%float then price fl else clean in
  (if (0.0 <? price fl)%float
   then fmtPrintln [VString "Yields for the quoted price:"]
   else fmtPrintln [VString "Yields for the calculated clean price:"]) ;;;
  fmtPrintf "  Price               %10.2f\n" [VFloat bondPrice] ;;;
  '(irr, err) <- call (CallIRR bondPrice b) (IRR core bondPrice b) ;;
  match err with
  | Some e => logFatal e
  | None =>
      fmtPrintf "  Yield-to-Maturity   %10.2f %%\n" [VFloat irr] ;;;
      '(spread', err) <- call (CallSpread bondPrice b nss)
                              (Spread core bondPrice b nss) ;;
      match err with
      | Some e => logFatal e
      | None => fmtPrintf "  Implied spread      %10.1f bps\n" [VFloat spread']
      end
  end.

(** The composite literal [bond.Straight{...}] of [main]. *)
Definition bondOf (fl : Flags) (quoteDate maturityDate : Time) : bond.Straight :=
  {| bond.Schedule :=
       {| maturity.Settlement := quoteDate;
          maturity.Maturity := maturityDate;
          maturity.Frequency := frequency fl;
          maturity.Basis := daycountname fl |};
     bond.Coupon := coupon fl;
     bond.Redemption := redemption fl |}.

(** The middle of [main]: the bond is built and priced and the report is
    printed. *)
Definition report (core : Core) (fl : Flags) (quoteDate maturityDate : Time)
    (nss : term.NelsonSiegelSvensson) : M unit :=
  let b := bondOf fl quoteDate maturityDate in
  '(dirty, clean) <- call (CallPricing b (spread fl) nss)
                          (Pricing core b (spread fl) nss) ;;
  fmtPrintln [VString EmptyString] ;;;
  fmtPrintf "Settlement Date  : %s\n" [VString (Format quoteDate)] ;;;
  fmtPrintf "Maturity Date    : %s\n" [VString (Format maturityDate)] ;;;
  fmtPrintln [VString EmptyString] ;;;
  ytm <- call (CallYearsToMaturity b) (YearsToMaturity core b) ;;
  fmtPrintf "Years to Maturity: %.2f years\n" [VFloat ytm] ;;;
  dur <- call (CallDuration b (spread fl) nss) (Duration core b (spread fl) nss) ;;
  fmtPrintf "Modified duration: %.2f\n" [VFloat dur] ;;;
  fmtPrintln [VString EmptyString] ;;;
  fmtPrintf "Coupon           : %.2f\n" [VFloat (coupon fl)] ;;;
  fmtPrintf "Frequency        : %d\n" [VInt (frequency fl)] ;;;
  fmtPrintf "Day Convention   : %s\n" [VString (daycountname fl)] ;;;
  fmtPrintln [VString EmptyString] ;;;
  fmtPrintf "Spread           : %.2f\n" [VFloat (spread fl)] ;;;
  fmtPrintln [VString EmptyString] ;;;
  fmtPrintf "    Dirty Price       %10.2f\n" [VFloat dirty] ;;;
  acc <- call (CallAccrued b) (Accrued core b) ;;
  fmtPrintf "[-] Accrued Interest  %10.2f\n" [VFloat acc] ;;;
  fmtPrintln [VString "--------------------------------"] ;;;
  fmtPrintf "[=] Clean Price       %10.2f\n" [VFloat clean] ;;;
  fmtPrintln [VString "================================"] ;;;
  fmtPrintln [VString EmptyString] ;;;
  yields core fl b nss clean.

(** [func main()].  Format strings are kept as the source spells them. *)
Definition main (env : Env) (core : Core) (cl : CmdLine) : M unit :=
  let fl := flagParse env cl in
  let (nssData, err) := ioutilReadFile env (fileFlag fl) in
  emit (ReadFile (fileFlag fl) nssData err) ;;;
  match err with
  | Some e => logPrintln (VError e)
  | None => ret tt
  end ;;;
  let (nss, err) := jsonUnmarshal env nssData term.zero in
  match err with
  | Some e =>
      logPrintln (VError e) ;;;
      logPrintln (VString "no file given for term structure parameters. Use template for Nelson-Siegel-Svensson:") ;;;
      let (data, err) := jsonMarshalIndent env term.zero " " EmptyString in
      match err with
      | Some e' => panic e'
      | None =>
          fmtPrintln [VString (string_of_list_byte data)] ;;;
          stop Return
      end
  | None =>
      let (quoteDate, err) := Parse (settlementFlag fl) in
      match err with
      | Some e => logFatal e
      | None =>
          let (maturityDate, err) := Parse (maturityFlag fl) in
          match err with
          | Some e => logFatal e
          | None => report core fl quoteDate maturityDate nss
          end
      end
  end.

(** ** Observations on traces *)

(** The target price a solver call was given. *)
Definition solverTarget (e : event) : option float64 :=
  match e with
  | CallIRR p _ _ => Some p
  | CallSpread p _ _ _ => Some p
  | _ => None
  end.

(** The curve an engine call was given. *)
Definition engineCurve (e : event) : option term.NelsonSiegelSvensson :=
  match e with
  | CallPricing _ _ nss _ => Some nss
  | CallDuration _ _ nss _ => Some nss
  | CallSpread _ _ nss _ => Some nss
  | _ => None
  end.

(** Calls into the engine: pricing, duration, the other bond queries and the
    two solvers. *)
Definition isEngineCall (e : event) : bool :=
  match e with
  | CallPricing _ _ _ _ | CallYearsToMaturity _ _ | CallDuration _ _ _ _
  | CallAccrued _ _ | CallIRR _ _ _ | CallSpread _ _ _ _ => true
  | _ => false
  end.



(** The log line that follows a failed read, if the read failed. *)
Definition logged (err : option error) : list event :=
  match err with
  | Some e => [LogPrintln (VError e)]
  | None => []
  end.

(** The run got as far as pricing: the file was read, its content decoded
    into [nss] without error, both dates parsed, and [b] is the bond built
    from the flags and the two dates. *)
Definition reachesPricing (env : Env) (cl : CmdLine) (b : bond.Straight)
    (nss : term.NelsonSiegelSvensson) : Prop :=
  let fl := flagParse env cl in
  exists data rerr quoteDate maturityDate,
    ioutilReadFile env (fileFlag fl) = (data, rerr) /\
    jsonUnmarshal env data term.zero = (nss, None) /\
    Parse (settlementFlag fl) = (quoteDate, None) /\
    Parse (maturityFlag fl) = (maturityDate, None) /\
    b = bondOf fl quoteDate maturityDate.

(** The target price of a run that got as far as pricing: the quote when it
    is strictly positive, the clean price that [Pricing] returned otherwise. *)
Definition targetChosen (env : Env) (core : Core) (cl : CmdLine)
    (p : float64) : Prop :=
  let fl := flagParse env cl in
  exists b nss dirty clean,
    reachesPricing env cl b nss /\
    Pricing core b (spread fl) nss = Value (dirty, clean) /\
    p = if (0.0 <? price fl)%float then price fl else clean.


End CLI.

(* ================================================================== *)
(** * The valuation engine, from the design document *)

Module SpecCore.

Import GoTime.
Local Open Scope float_scope.

(** Modelled from the spec: the integer frequency as a float, for the
    division in the coupon amount (section 4.4); the engine's own conversion
    is in the missing pkg/bond. *)
Definition floatOfZ (z : Z) : float64 :=
  if (z <? 0)%Z then - of_uint63 (Uint63.of_Z (- z)) else of_uint63 (Uint63.of_Z z).

(** Modelled from the spec: a cash-flow date of a schedule (section 3), a
    coupon date tagged with its year fraction from settlement; pkg/maturity
    is missing. *)
Record CashFlowDate : Set := mkCashFlowDate {
  date : Time;
  yearsToFlow : float64
}.

(** Modelled from the spec: what schedule generation produces (sections 2
    and 3): the future cash-flow dates in order and the accrual fraction
    since the last coupon; pkg/maturity is missing. *)
Record BondSchedule : Set := mkBondSchedule {
  flows : list CashFlowDate;
  accrualFraction : float64
}.

(** Modelled from the spec: a date moved by whole months (section 4.3 steps
    in increments of 12/frequency months); pkg/maturity is missing.  The day
    of the month is kept: the document does not say how a day that the
    target month lacks is adjusted. *)
Definition addMonths (t : Time) (k : Z) : Time :=
  let n := (year t * 12 + (month t - 1) + k)%Z in
  mkTime (n / 12) (n mod 12 + 1) (day t).

(** Modelled from the spec: the backward stepping of section 4.3 (the loop of
    the missing pkg/maturity): from [d], one period at a time, until a date
    before settlement is passed.  The dates on or after settlement are the
    future coupons (returned earliest first); the date where the stepping
    ends is the reference date for accrued interest. *)
Fixpoint stepBack (fuel : nat) (settlement d : Time) (step : Z)
    (acc : list Time) : list Time * Time :=
  match fuel with
  | O => (acc, d)
  | S n =>
      if ltb d settlement then (acc, d)
      else stepBack n settlement (addMonths d (- step)) step (d :: acc)
  end.

(** Modelled from the spec: enough steps to pass settlement when the step is
    a month or more (one step per month between the two dates, and one). *)
Definition stepBound (settlement maturity : Time) : nat :=
  Z.to_nat (12 * (year maturity - year settlement) + 13).

Section Engine.

(** DayCount (section 4.1), the contract of the separate daycount package:
    the accrual fraction of a year between two dates under a named
    convention, or [UnsupportedConventionError]. *)
Variable yearFraction : Time -> Time -> string -> outcome float64.

(** Curve (section 4.2), the contract of the missing pkg/term towards
    pricing: the discount factor for a time to maturity in years and a
    spread in basis points, or [InvalidCurveError].  Its real-valued model
    is [Curve.discountFactor] below. *)
Variable discountFactor :
  term.NelsonSiegelSvensson -> float64 -> float64 -> outcome float64.

(** Modelled from the spec: each coupon date tagged with its year fraction
    from settlement, as a single accrual from settlement (section 4.3);
    pkg/maturity is missing. *)
Fixpoint tagFlows (settlement : Time) (convention : string)
    (ds : list Time) : outcome (list CashFlowDate) :=
  match ds with
  | [] => Value []
  | d :: ds' =>
      obind (yearFraction settlement d convention) (fun y =>
      obind (tagFlows settlement convention ds') (fun fs =>
      Value (mkCashFlowDate d y :: fs)))
  end.

(** Modelled from the spec: [generate] of section 4.3 (the missing
    pkg/maturity): fails with [InvalidScheduleError] if maturity <=
    settlement or frequency <= 0; otherwise steps backward from maturity. *)
Definition generate (settlement maturity : Time) (frequency : Z)
    (convention : string) : outcome BondSchedule :=
  if (leb maturity settlement || (frequency <=? 0)%Z)%bool
  then Raise InvalidScheduleError
  else
    let (dates, reference) :=
      stepBack (stepBound settlement maturity) settlement maturity
               (12 / frequency)%Z [] in
    obind (yearFraction reference settlement convention) (fun a =>
    obind (tagFlows settlement convention dates) (fun fs =>
    Value (mkBondSchedule fs a))).

(** Modelled from the spec: the schedule a bond owns (section 3), generated
    from the bond's four schedule fields; pkg/bond is missing. *)
Definition scheduleOf (b : bond.Straight) : outcome BondSchedule :=
  let s := bond.Schedule b in
  generate (maturity.Settlement s) (maturity.Maturity s)
           (maturity.Frequency s) (maturity.Basis s).

(** Modelled from the spec: the coupon amount of section 4.4,
    coupon * redemption / frequency / 100; pkg/bond is missing. *)
Definition couponAmount (b : bond.Straight) : float64 :=
  bond.Coupon b * bond.Redemption b
  / floatOfZ (maturity.Frequency (bond.Schedule b)) / 100.

(** Modelled from the spec: the sum of section 4.4 over the scheduled cash
    flows, each coupon amount times its discount factor, the final flow
    including redemption; pkg/bond is missing. *)
Fixpoint presentValue (amount redemption : float64)
    (curve : term.NelsonSiegelSvensson) (spreadBps : float64)
    (fs : list CashFlowDate) : outcome float64 :=
  match fs with
  | [] => Value 0
  | f :: rest =>
      obind (discountFactor curve (yearsToFlow f) spreadBps) (fun df =>
      match rest with
      | [] => Value ((amount + redemption) * df)
      | _ :: _ =>
          obind (presentValue amount redemption curve spreadBps rest) (fun pv =>
          Value (amount * df + pv))
      end)
  end.

(** Modelled from the spec: accrued interest (section 4.4), the coupon
    amount times the accrual fraction since the last coupon; the method
    [Accrued] of the missing pkg/bond. *)
Definition accruedInterest (b : bond.Straight) : outcome float64 :=
  obind (scheduleOf b) (fun s =>
  Value (couponAmount b * accrualFraction s)).

(** Modelled from the spec: [price(bond, curve, spreadBps) -> (dirty, clean)]
    of section 4.4, the method [Pricing] of the missing pkg/bond: the dirty
    price is the discounted sum and the clean price is dirty minus accrued
    interest. *)
Definition price (b : bond.Straight) (curve : term.NelsonSiegelSvensson)
    (spreadBps : float64) : outcome (float64 * float64) :=
  obind (scheduleOf b) (fun s =>
  obind (presentValue (couponAmount b) (bond.Redemption b) curve spreadBps
                      (flows s)) (fun dirty =>
  obind (accruedInterest b) (fun accrued =>
  Value (dirty, dirty - accrued)))).

(** Modelled from the spec: [yearsToMaturity(bond)] of section 4.4,
    DayCount(settlement, maturity); pkg/bond is missing. *)
Definition yearsToMaturity (b : bond.Straight) : outcome float64 :=
  let s := bond.Schedule b in
  yearFraction (maturity.Settlement s) (maturity.Maturity s) (maturity.Basis s).

(** The engine behind the front end's interface: pricing, accrued interest
    and years to maturity as modelled above; duration and the two solvers,
    whose algorithms the design document leaves open, as given. *)
Definition core
    (duration : bond.Straight -> float64 -> term.NelsonSiegelSvensson ->
                outcome float64)
    (irr : float64 -> bond.Straight -> outcome (float64 * option error))
    (spreadSolver : float64 -> bond.Straight -> term.NelsonSiegelSvensson ->
                    outcome (float64 * option error)) : CLI.Core :=
  {| CLI.Pricing := fun b s nss => price b nss s;
     CLI.YearsToMaturity := yearsToMaturity;
     CLI.Duration := duration;
     CLI.Accrued := accruedInterest;
     CLI.IRR := irr;
     CLI.Spread := spreadSolver |}.

End Engine.

End SpecCore.

(* ================================================================== *)
(** * The Nelson-Siegel-Svensson curve over the reals *)

Module Curve.

Local Open Scope R_scope.

(** Modelled from the spec: the six real-valued curve parameters of section
    3; pkg/term is missing. *)
Record params : Type := mkParams {
  beta0 : R; beta1 : R; beta2 : R; beta3 : R;
  tau1 : R; tau2 : R
}.


(** Modelled from the spec: the factor (1 - e^(-x)) / x of the formula in
    section 4.2. *)
Definition loading (x : R) : R := (1 - exp (- x)) / x.

(** Modelled from the spec: [zeroRate(years, spreadBps)] of section 4.2 (the
    missing pkg/term): the NSS formula with spreadBps / 10000 added, and at
    t = 0 its limit beta0 + beta1. *)
Definition zeroRate (p : params) (t spreadBps : R) : R :=
  (if Req_dec_T t 0 then beta0 p + beta1 p
   else beta0 p
        + beta1 p * loading (t / tau1 p)
        + beta2 p * (loading (t / tau1 p) - exp (- (t / tau1 p)))
        + beta3 p * (loading (t / tau2 p) - exp (- (t / tau2 p))))
  + spreadBps / 10000.

(** Modelled from the spec: [discountFactor(years, spreadBps)] of section
    4.2 (the missing pkg/term), (1 + r(t))^(-t) under annual compounding. *)
Definition discountFactor (p : params) (t spreadBps : R) : R :=
  Rpower (1 + zeroRate p t spreadBps) (- t).




End Curve.

(* ================================================================== *)
(** * A concrete run, used to exercise the statements below *)

Module Demo.

Import GoTime CLI.
Local Open Scope string_scope.
Local Open Scope float_scope.

Definition curve : term.NelsonSiegelSvensson := term.mkNSS 0.03125 0 0 0 1 1.

Definition fileText : string := "{params}".

Definition template : string := "{template}".

(** A stand-in for the decoder: the text of the demo file decodes to
    [curve], an empty object leaves the value as it is, and anything else,
    the empty input included, is an error. *)
Definition unmarshal (data : list byte) (v : term.NelsonSiegelSvensson)
    : term.NelsonSiegelSvensson * option error :=
  if String.eqb (string_of_list_byte data) fileText then (curve, None)
  else if String.eqb (string_of_list_byte data) "{}" then (v, None)
  else (v, Some (GoError "unexpected end of JSON input")).

(** A file system that holds [term.json] and [empty.json]. *)
Definition readFile (name : string) : list byte * option error :=
  if String.eqb name "term.json" then (list_byte_of_string fileText, None)
  else if String.eqb name "empty.json" then (list_byte_of_string "{}", None)
  else ([], Some (GoError "open: no such file or directory")).

Definition envAt (today : Time) : Env :=
  {| now1 := today;
     now2 := today;
     ioutilReadFile := readFile;
     jsonUnmarshal := unmarshal;
     jsonMarshalIndent := fun _ _ _ => (list_byte_of_string template, None) |}.

Definition env : Env := envAt (mkTime 2024 3 15).

(** An engine that answers every query with a fixed number. *)
Definition core : Core :=
  {| Pricing := fun _ _ _ => Value (101.5, 100.25);
     YearsToMaturity := fun _ => Value 1;
     Duration := fun _ _ _ => Value 0.875;
     Accrued := fun _ => Value 1.25;
     IRR := fun _ _ => Value (4.75, None);
     Spread := fun _ _ _ => Value (12.5, None) |}.

(** A command line with no flag given. *)
Definition noFlags : CmdLine :=
  mkCmdLine None None None None None None None None None.

(** A command line with both dates and a quote. *)
Definition dated : CmdLine :=
  mkCmdLine (Some "2024-01-01") (Some "2025-01-01") (Some 5) (Some 1%Z)
            (Some 99.5) None None None None.

(** A command line whose two dates are the same day. *)
Definition sameDay : CmdLine :=
  mkCmdLine (Some "2024-01-01") (Some "2024-01-01") (Some 5) (Some 1%Z)
            None None None None None.

(** A command line with values the engine is meant to reject. *)
Definition outOfRange : CmdLine :=
  mkCmdLine (Some "2024-01-01") (Some "2025-01-01") (Some (-5)) (Some 0%Z)
            None (Some (-100)) (Some 1e9) (Some "empty.json")
            (Some "no such convention").

(** A command line that names a file which does not exist. *)
Definition missingFile : CmdLine :=
  mkCmdLine None None None None None None None (Some "absent.json") None.

(** A stand-in day count: 30/360 on the raw calendar fields. *)
Definition yearFraction (a b : Time) (convention : string) : outcome float64 :=
  if String.eqb convention "30E360" then
    Value (SpecCore.floatOfZ (360 * (year b - year a) + 30 * (month b - month a)
                              + (day b - day a)) / 360)
  else Raise UnsupportedConventionError.

(** A stand-in discount function: a straight-line discount at the curve's
    beta0 plus the spread. *)
Definition discountFactor (c : term.NelsonSiegelSvensson) (t spreadBps : float64)
    : outcome float64 :=
  Value (1 - (term.B0 c + spreadBps / 10000) * t).

Definition specCore : Core :=
  SpecCore.core yearFraction discountFactor
    (fun _ _ _ => Value 0.875) (fun _ _ => Value (4.75, None))
    (fun _ _ _ => Value (12.5, None)).

(** A command line with a mid-period settlement date. *)
Definition midPeriod : CmdLine :=
  mkCmdLine (Some "2024-04-01") (Some "2026-01-01") (Some 5) (Some 2%Z)
            None None None None None.

End Demo.

(* ================================================================== *)
(** * Further observations on runs *)

Module Run.

Import GoTime CLI.
Local Open Scope string_scope.

(** The six entry points of the engine that [main] calls. *)
Inductive callKind : Set :=
| KPricing
| KYearsToMaturity
| KDuration
| KAccrued
| KIRR
| KSpread.

Definition kindOf (e : event) : option callKind :=
  match e with
  | CallPricing _ _ _ _ => Some KPricing
  | CallYearsToMaturity _ _ => Some KYearsToMaturity
  | CallDuration _ _ _ _ => Some KDuration
  | CallAccrued _ _ => Some KAccrued
  | CallIRR _ _ _ => Some KIRR
  | CallSpread _ _ _ _ => Some KSpread
  | _ => None
  end.

(** The engine calls of a trace, in the order they were made. *)
Fixpoint kinds (t : list event) : list callKind :=
  match t with
  | [] => []
  | e :: t' =>
      match kindOf e with
      | Some k => k :: kinds t'
      | None => kinds t'
      end
  end.

(** The order in which [main] calls the engine, from top to bottom. *)
Definition callOrder : list callKind :=
  [KPricing; KYearsToMaturity; KDuration; KAccrued; KIRR; KSpread].

(** The bond an engine call was given. *)
Definition engineBond (e : event) : option bond.Straight :=
  match e with
  | CallPricing b _ _ _ | CallYearsToMaturity b _ | CallDuration b _ _ _
  | CallAccrued b _ | CallIRR _ b _ | CallSpread _ b _ _ => Some b
  | _ => None
  end.

(** The spread a bond query was given ([Pricing] and [Duration] take one). *)
Definition engineSpread (e : event) : option float64 :=
  match e with
  | CallPricing _ s _ _ | CallDuration _ s _ _ => Some s
  | _ => None
  end.

(** The error a solver call returned, if it returned one. *)
Definition solverError (e : event) : option error :=
  match e with
  | CallIRR _ _ (Value (_, Some err)) => Some err
  | CallSpread _ _ _ (Value (_, Some err)) => Some err
  | _ => None
  end.

Definition isLogFatal (e : event) : bool :=
  match e with
  | LogFatal _ => true
  | _ => false
  end.

(** The last event of a trace, if there is one. *)
Definition lastEvent (t : list event) : option event :=
  last (map Some t) None.

(** A calendar date that exists, in the years the layout prints with four
    digits. *)
Definition validDate (t : Time) : Prop :=
  (0 <= year t <= 9999 /\ 1 <= month t <= 12 /\
   1 <= day t <= daysIn (year t) (month t))%Z.

(** The lines of the report that show a number the engine returned, or a
    number chosen from them. *)
Definition lineYears : string := "Years to Maturity: %.2f years\n".
Definition lineDuration : string := "Modified duration: %.2f\n".
Definition lineDirty : string := "    Dirty Price       %10.2f\n".
Definition lineAccrued : string := "[-] Accrued Interest  %10.2f\n".
Definition lineClean : string := "[=] Clean Price       %10.2f\n".
Definition linePrice : string := "  Price               %10.2f\n".
Definition lineYield : string := "  Yield-to-Maturity   %10.2f %%\n".
Definition lineSpread : string := "  Implied spread      %10.1f bps\n".

Definition headerQuoted : event :=
  Println [VString "Yields for the quoted price:"].
Definition headerCalculated : event :=
  Println [VString "Yields for the calculated clean price:"].

End Run.

(* ================================================================== *)
(** * More concrete runs *)

Module Cases.

Import GoTime CLI.
Local Open Scope string_scope.
Local Open Scope float_scope.

(** A command line whose settlement date does not exist. *)
Definition badSettlement : CmdLine :=
  mkCmdLine (Some "2024-02-30") (Some "2025-01-01") None None None None None
            None None.

(** A file system whose read of [term.json] yields the whole text and an
    error besides. *)
Definition flakyEnv : Env :=
  {| now1 := mkTime 2024 3 15;
     now2 := mkTime 2024 3 15;
     ioutilReadFile := fun _ =>
       (list_byte_of_string Demo.fileText,
        Some (GoError "read term.json: input/output error"));
     jsonUnmarshal := Demo.unmarshal;
     jsonMarshalIndent := fun _ _ _ => (list_byte_of_string Demo.template, None) |}.

(** An engine whose yield solver finds no root. *)
Definition irrFails : Core :=
  {| Pricing := fun _ _ _ => Value (101.5, 100.25);
     YearsToMaturity := fun _ => Value 1;
     Duration := fun _ _ _ => Value 0.875;
     Accrued := fun _ => Value 1.25;
     IRR := fun _ _ => Value (0, Some NoRootError);
     Spread := fun _ _ _ => Value (12.5, None) |}.

(** The bond of the run [Demo.dated]. *)
Definition datedBond : bond.Straight :=
  bondOf (flagParse Demo.env Demo.dated) (mkTime 2024 1 1) (mkTime 2025 1 1).

End Cases.

(* ================================================================== *)
(** * Checks of the date model on concrete inputs *)

Section DateExamples.

Import GoTime.
Local Open Scope string_scope.

Example parse_ok : Parse "2024-02-29" = (mkTime 2024 2 29, None).
Proof. reflexivity. Qed.

Example parse_day_out_of_range : Parse "2023-02-29" = (zeroTime, Some rangeError).
Proof. reflexivity. Qed.

Example parse_short_month : Parse "2024-2-29" = (zeroTime, Some parseError).
Proof. reflexivity. Qed.

Example format_pads : Format (mkTime 987 6 5) = "0987-06-05".
Proof. reflexivity. Qed.

Example add_year_plain : AddDate (mkTime 2024 3 15) 1 = mkTime 2025 3 15.
Proof. reflexivity. Qed.

Example add_year_leap_day : AddDate (mkTime 2024 2 29) 1 = mkTime 2025 3 1.
Proof. reflexivity. Qed.

Example default_dates :
  let fl := CLI.flagParse Demo.env Demo.noFlags in
  (CLI.settlementFlag fl, CLI.maturityFlag fl) = ("2024-03-15", "2025-03-15").
Proof. reflexivity. Qed.

End DateExamples.

(* ================================================================== *)
(** * Properties of the trace monad *)

Section TraceMonad.

Import CLI.

Variables A B : Type.
Variable m : M A.
Variable k : A -> M B.

Lemma trace_bind :
  trace (bind m k) =
  (trace m ++ match result m with
              | inl a => trace (k a)
              | inr _ => []
              end)%list.
Proof.
  unfold bind, trace, result.
  destruct m as [t [a | x]]; cbn.
  - destruct (k a); reflexivity.
  - now rewrite app_nil_r.
Qed.

Lemma result_bind :
  result (bind m k) =
  match result m with
  | inl a => result (k a)
  | inr x => inr x
  end.
Proof.
  unfold bind, result.
  destruct m as [t [a | x]]; cbn; [destruct (k a) |]; reflexivity.
Qed.

Lemma In_bind_inv (e : event) :
  In e (trace (bind m k)) ->
  In e (trace m) \/ exists a, result m = inl a /\ In e (trace (k a)).
Proof.
  rewrite trace_bind. intros H. apply in_app_or in H as [H | H]; [now left |].
  destruct (result m) as [a | x]; [right; now exists a | contradiction].
Qed.

Lemma In_bind_l (e : event) : In e (trace m) -> In e (trace (bind m k)).
Proof. rewrite trace_bind. intros H. apply in_or_app. now left. Qed.

Lemma In_bind_r (e : event) (a : A) :
  result m = inl a -> In e (trace (k a)) -> In e (trace (bind m k)).
Proof.
  rewrite trace_bind. intros -> H. apply in_or_app. now right.
Qed.

End TraceMonad.

Section Calls.

Import CLI.

Variable A : Type.
Variable ev : outcome A -> event.

Lemma In_call_inv (r : outcome A) (e : event) :
  In e (trace (call ev r)) -> e = ev r.
Proof. destruct r; cbn; intros [H | []]; now symmetry. Qed.

Lemma result_call_inv (r : outcome A) (a : A) :
  result (call ev r) = inl a -> r = Value a.
Proof. destruct r; cbn; intros H; now inversion H. Qed.

Lemma In_call (r : outcome A) : In (ev r) (trace (call ev r)).
Proof. destruct r; cbn; now left. Qed.

Lemma result_call (a : A) : result (call ev (Value a)) = inl a.
Proof. reflexivity. Qed.

End Calls.

(** Case analysis on where in a run an event of its trace was recorded: one
    goal for each statement that records an event, with the facts that lead
    the run there. *)
Ltac where_in H :=
  lazymatch type of H with
  | In _ (CLI.trace (CLI.bind (CLI.call _ _) _)) =>
      let Hr := fresh "Hr" in
      let a := fresh "a" in
      apply In_bind_inv in H; destruct H as [H | [a [Hr H]]];
      [ apply In_call_inv in H
      | apply result_call_inv in Hr; try destruct a; where_in H ]
  | In _ (CLI.trace (CLI.bind _ _)) =>
      let Hr := fresh "Hr" in
      let a := fresh "a" in
      apply In_bind_inv in H; destruct H as [H | [a [Hr H]]];
      [ where_in H | clear Hr; where_in H ]
  | In _ (CLI.trace (match ?x with _ => _ end)) =>
      let E := fresh "E" in
      destruct x eqn:E; cbv beta iota in *; where_in H
  | In _ (CLI.trace (CLI.call _ _)) => apply In_call_inv in H
  | In _ (CLI.trace (CLI.yields _ _ _ _ _)) => unfold CLI.yields in H; where_in H
  | In _ (CLI.trace (CLI.report _ _ _ _ _)) => unfold CLI.report in H; where_in H
  | In _ (CLI.trace (CLI.main _ _ _)) => unfold CLI.main in H; where_in H
  | In _ (CLI.trace _) =>
      cbn in H; repeat (destruct H as [H | H]; [symmetry in H |]);
      try contradiction
  end.

Section FrontEnd.

Import GoTime CLI.
Local Open Scope string_scope.





Lemma main_run_priced (env : Env) (core : Core) (cl : CmdLine)
    (data : list Byte.byte) (rerr : option error)
    (nss : term.NelsonSiegelSvensson) (q m : Time) :
  ioutilReadFile env (fileFlag (flagParse env cl)) = (data, rerr) ->
  jsonUnmarshal env data term.zero = (nss, None) ->
  Parse (settlementFlag (flagParse env cl)) = (q, None) ->
  Parse (maturityFlag (flagParse env cl)) = (m, None) ->
  main env core cl =
  (ReadFile (fileFlag (flagParse env cl)) data rerr
     :: logged rerr ++ trace (report core (flagParse env cl) q m nss),
   result (report core (flagParse env cl) q m nss)).
Proof.
  intros Hrd Hum Hq Hm.
  unfold main; cbv zeta. rewrite Hrd, Hum, Hq, Hm.
  unfold trace, result.
  destruct (report core (flagParse env cl) q m nss) as [t r].
  destruct rerr; reflexivity.
Qed.

Lemma report_starts_with_pricing (core : Core) (fl : Flags) (q m : Time)
    (nss : term.NelsonSiegelSvensson) :
  exists rest,
    trace (report core fl q m nss) =
    CallPricing (bondOf fl q m) (spread fl) nss
                (Pricing core (bondOf fl q m) (spread fl) nss) :: rest.
Proof.
  unfold report; cbv zeta. rewrite trace_bind.
  destruct (Pricing core (bondOf fl q m) (spread fl) nss);
    eexists; reflexivity.
Qed.

Lemma main_calls_pricing (env : Env) (core : Core) (cl : CmdLine)
    (data : list Byte.byte) (rerr : option error)
    (nss : term.NelsonSiegelSvensson) (q m : Time) :
  ioutilReadFile env (fileFlag (flagParse env cl)) = (data, rerr) ->
  jsonUnmarshal env data term.zero = (nss, None) ->
  Parse (settlementFlag (flagParse env cl)) = (q, None) ->
  Parse (maturityFlag (flagParse env cl)) = (m, None) ->
  In (CallPricing (bondOf (flagParse env cl) q m)
                  (spread (flagParse env cl)) nss
                  (Pricing core (bondOf (flagParse env cl) q m)
                           (spread (flagParse env cl)) nss))
     (trace (main env core cl)).
Proof.
  intros Hrd Hum Hq Hm.
  erewrite main_run_priced by eassumption.
  destruct (report_starts_with_pricing core (flagParse env cl) q m nss)
    as (rest & Hrest).
  cbn [trace fst]. right. apply in_or_app. right.
  rewrite Hrest. now left.
Qed.

Lemma main_run_template (env : Env) (core : Core) (cl : CmdLine)
    (data tmpl : list Byte.byte) (rerr : option error)
    (v : term.NelsonSiegelSvensson) (e : error) :
  ioutilReadFile env (fileFlag (flagParse env cl)) = (data, rerr) ->
  jsonUnmarshal env data term.zero = (v, Some e) ->
  jsonMarshalIndent env term.zero " " EmptyString = (tmpl, None) ->
  main env core cl =
  (ReadFile (fileFlag (flagParse env cl)) data rerr
     :: logged rerr ++
        [LogPrintln (VError e);
         LogPrintln (VString "no file given for term structure parameters. Use template for Nelson-Siegel-Svensson:");
         Println [VString (string_of_list_byte tmpl)]],
   inr Return).
Proof.
  intros Hrd Hum Hmi.
  unfold main; cbv zeta. rewrite Hrd, Hum, Hmi.
  destruct rerr; reflexivity.
Qed.


(** C4.  If the content of the parameter file cannot be decoded, the run
    records the read, logs the error and the hint, prints the template
    marshalled from a zero-valued [NelsonSiegelSvensson] and returns; its
    trace holds no call into the engine: no pricing and no solving. *)
Theorem undecodable_file_prints_template :
  forall (env : Env) (core : Core) (cl : CmdLine)
         (data tmpl : list Byte.byte) (rerr : option error)
         (v : term.NelsonSiegelSvensson) (e : error),
    ioutilReadFile env (fileFlag (flagParse env cl)) = (data, rerr) ->
    jsonUnmarshal env data term.zero = (v, Some e) ->
    jsonMarshalIndent env term.zero " " EmptyString = (tmpl, None) ->
    main env core cl =
    (ReadFile (fileFlag (flagParse env cl)) data rerr
       :: logged rerr ++
          [LogPrintln (VError e);
           LogPrintln (VString "no file given for term structure parameters. Use template for Nelson-Siegel-Svensson:");
           Println [VString (string_of_list_byte tmpl)]],
     inr Return)
    /\ forall ev, In ev (trace (main env core cl)) -> isEngineCall ev = false.
Proof.
  intros env core cl data tmpl rerr v e Hrd Hum Hmi.
  erewrite main_run_template by eassumption.
  split; [reflexivity |].
  intros ev Hin. cbn [trace fst] in Hin.
  destruct Hin as [<- | Hin]; [reflexivity |].
  apply in_app_or in Hin as [Hin | Hin].
  - destruct rerr; cbn in Hin; [destruct Hin as [<- | []]; reflexivity | contradiction].
  - cbn in Hin. repeat (destruct Hin as [<- | Hin]; [reflexivity |]). contradiction.
Qed.



(** C9.  The front end checks none of the numeric inputs.  Whenever the file
    decodes and the two dates parse, [Pricing] is called on a bond that holds
    the coupon, frequency, redemption and day-count name exactly as the
    command line gave them (or their defaults), with the spread as given and
    the curve as decoded, whatever these values are: a frequency of zero or
    below, an unknown convention name and a curve with tau1 or tau2 <= 0
    reach the engine like any other. *)
Theorem flags_reach_engine_unchecked :
  forall (env : Env) (core : Core) (cl : CmdLine)
         (data : list Byte.byte) (rerr : option error)
         (nss : term.NelsonSiegelSvensson) (q m : Time),
    ioutilReadFile env (fileFlag (flagParse env cl)) = (data, rerr) ->
    jsonUnmarshal env data term.zero = (nss, None) ->
    Parse (settlementFlag (flagParse env cl)) = (q, None) ->
    Parse (maturityFlag (flagParse env cl)) = (m, None) ->
    exists r,
      In (CallPricing
            {| bond.Schedule :=
                 {| maturity.Settlement := q;
                    maturity.Maturity := m;
                    maturity.Frequency := orDefault (argN cl) 1%Z;
                    maturity.Basis := orDefault (argDaycount cl) "30E360" |};
               bond.Coupon := orDefault (argCoupon cl) 0%float;
               bond.Redemption := orDefault (argRedemption cl) 100%float |}
            (orDefault (argSpread cl) 0%float) nss r)
         (trace (main env core cl)).
Proof.
  intros env core cl data rerr nss q m Hrd Hum Hq Hm.
  eexists. exact (main_calls_pricing env core cl Hrd Hum Hq Hm).
Qed.


End FrontEnd.

(* ================================================================== *)
(** * The engine of the design document behind the front end *)

Section Engine.

Import GoTime CLI.
Local Open Scope string_scope.

Variable yearFraction : Time -> Time -> string -> outcome float64.
Variable discountFactor :
  term.NelsonSiegelSvensson -> float64 -> float64 -> outcome float64.

Lemma leb_refl (t : Time) : leb t t = true.
Proof. unfold leb, compare. now rewrite !Z.compare_refl. Qed.

Lemma generate_rejects (settlement maturity : Time) (frequency : Z)
    (convention : string) :
  leb maturity settlement = true ->
  SpecCore.generate yearFraction settlement maturity frequency convention
  = Raise InvalidScheduleError.
Proof. intros H. unfold SpecCore.generate. now rewrite H. Qed.

Lemma price_rejects (b : bond.Straight) (curve : term.NelsonSiegelSvensson)
    (s : float64) :
  leb (maturity.Maturity (bond.Schedule b))
      (maturity.Settlement (bond.Schedule b)) = true ->
  SpecCore.price yearFraction discountFactor b curve s
  = Raise InvalidScheduleError.
Proof.
  intros H. unfold SpecCore.price, SpecCore.scheduleOf.
  now rewrite generate_rejects.
Qed.

Lemma price_clean (b : bond.Straight) (curve : term.NelsonSiegelSvensson)
    (s dirty clean : float64) :
  SpecCore.price yearFraction discountFactor b curve s = Value (dirty, clean) ->
  exists acc,
    SpecCore.accruedInterest yearFraction b = Value acc /\
    clean = (dirty - acc)%float.
Proof.
  unfold SpecCore.price, SpecCore.accruedInterest.
  destruct (SpecCore.scheduleOf yearFraction b) as [sch | e]; cbn;
    [| discriminate].
  destruct (SpecCore.presentValue _ _ _ _ _ _) as [pv | e]; cbn;
    [| discriminate].
  intros H. injection H as <- <-. eexists. split; reflexivity.
Qed.

End Engine.

Section EngineBehindFrontEnd.

Import GoTime CLI.
Local Open Scope string_scope.

(** C2.  The pair that pricing returns satisfies clean = dirty - accrued,
    where accrued is what the bond's accrued-interest query returns; and in
    every run of the front end on this engine the three numbers handed to
    the report lines for the dirty price, the accrued interest and the clean
    price satisfy the same identity. *)
Theorem clean_is_dirty_minus_accrued :
  forall (yearFraction : Time -> Time -> string -> outcome float64)
         (discountFactor : term.NelsonSiegelSvensson -> float64 -> float64 ->
                           outcome float64),
    (forall b curve s dirty clean,
        SpecCore.price yearFraction discountFactor b curve s
        = Value (dirty, clean) ->
        exists acc,
          SpecCore.accruedInterest yearFraction b = Value acc /\
          clean = (dirty - acc)%float)
    /\ (forall duration irr spreadSolver env cl d a c,
          let tr := trace (main env (SpecCore.core yearFraction discountFactor
                                       duration irr spreadSolver) cl) in
          In (Printf "    Dirty Price       %10.2f\n" [VFloat d]) tr ->
          In (Printf "[-] Accrued Interest  %10.2f\n" [VFloat a]) tr ->
          In (Printf "[=] Clean Price       %10.2f\n" [VFloat c]) tr ->
          c = (d - a)%float).
Proof.
  intros yf df. split; [apply price_clean |].
  intros dur irr sp env cl d a c tr Hd Ha Hc. subst tr.
  unfold main, report, yields in Hd, Ha, Hc.
  where_in Hd; try discriminate Hd. injection Hd as <-.
  where_in Ha; try discriminate Ha. injection Ha as <-.
  where_in Hc; try discriminate Hc. injection Hc as <-.
  all: repeat match goal with
         | H1 : ?x = Value _, H2 : ?x = Value _ |- _ =>
             rewrite H1 in H2; injection H2; intros; subst; clear H2
         end.
  all: cbn in *.
  all: match goal with
       | H : SpecCore.price _ _ _ _ _ = Value _ |- _ =>
           destruct (price_clean _ _ _ _ _ H) as (acc & Hacc & ->)
       end.
  all: congruence.
Qed.

(** C5.  When the maturity date is not after the settlement date, and in
    particular when the two are equal, schedule generation fails with
    [InvalidScheduleError] and no price is produced.  The front end compares
    the dates nowhere: the bond it hands to [Pricing] holds the two dates as
    parsed, and on this engine the run ends in that call, with no line of
    the report printed. *)
Theorem equal_dates_fail_in_schedule_generation :
  forall (yearFraction : Time -> Time -> string -> outcome float64)
         (discountFactor : term.NelsonSiegelSvensson -> float64 -> float64 ->
                           outcome float64)
         duration irr spreadSolver
         (env : Env) (cl : CmdLine)
         (data : list Byte.byte) (rerr : option error)
         (nss : term.NelsonSiegelSvensson) (q m : Time),
    ioutilReadFile env (fileFlag (flagParse env cl)) = (data, rerr) ->
    jsonUnmarshal env data term.zero = (nss, None) ->
    Parse (settlementFlag (flagParse env cl)) = (q, None) ->
    Parse (maturityFlag (flagParse env cl)) = (m, None) ->
    leb m q = true ->
    SpecCore.generate yearFraction q m (frequency (flagParse env cl))
                      (daycountname (flagParse env cl))
    = Raise InvalidScheduleError
    /\ (forall core : Core,
          exists r,
            In (CallPricing
                  {| bond.Schedule :=
                       {| maturity.Settlement := q;
                          maturity.Maturity := m;
                          maturity.Frequency := frequency (flagParse env cl);
                          maturity.Basis := daycountname (flagParse env cl) |};
                     bond.Coupon := coupon (flagParse env cl);
                     bond.Redemption := redemption (flagParse env cl) |}
                  (spread (flagParse env cl)) nss r)
               (trace (main env core cl)))
    /\ main env (SpecCore.core yearFraction discountFactor
                   duration irr spreadSolver) cl
       = (ReadFile (fileFlag (flagParse env cl)) data rerr
            :: logged rerr ++
               [CallPricing
                  {| bond.Schedule :=
                       {| maturity.Settlement := q;
                          maturity.Maturity := m;
                          maturity.Frequency := frequency (flagParse env cl);
                          maturity.Basis := daycountname (flagParse env cl) |};
                     bond.Coupon := coupon (flagParse env cl);
                     bond.Redemption := redemption (flagParse env cl) |}
                  (spread (flagParse env cl)) nss
                  (Raise InvalidScheduleError)],
          inr (Panicked InvalidScheduleError)).
Proof.
  intros yf df dur irr sp env cl data rerr nss q m Hrd Hum Hq Hm Hle.
  split; [now apply generate_rejects |]. split.
  - intros core. eexists.
    exact (main_calls_pricing env core cl Hrd Hum Hq Hm).
  - erewrite main_run_priced by eassumption.
    unfold report; cbv zeta.
    cbn [Pricing SpecCore.core].
    rewrite price_rejects by exact Hle.
    reflexivity.
Qed.

End EngineBehindFrontEnd.
(* ================================================================== *)
(** * The curve over the reals *)

Section RealCurve.

Import Curve.
Local Open Scope R_scope.











End RealCurve.

(* ================================================================== *)
(** * The statements at concrete runs *)

Section Witnesses.

Import GoTime CLI.
Local Open Scope string_scope.


Lemma clean_is_dirty_minus_accrued_witness :
  (103.59375 = 104.21875 - 0.625)%float.
Proof.
  apply (proj2 (clean_is_dirty_minus_accrued
                  Demo.yearFraction Demo.discountFactor)
           (fun _ _ _ => Value 0.875%float)
           (fun _ _ => Value (4.75%float, None))
           (fun _ _ _ => Value (12.5%float, None))
           Demo.env Demo.midPeriod).
  all: vm_compute; repeat (first [left; reflexivity | right]).
Defined.

Lemma undecodable_file_witness :
  main Demo.env Demo.core Demo.missingFile =
  ([ReadFile "absent.json" [] (Some (GoError "open: no such file or directory"));
    LogPrintln (VError (GoError "open: no such file or directory"));
    LogPrintln (VError (GoError "unexpected end of JSON input"));
    LogPrintln (VString "no file given for term structure parameters. Use template for Nelson-Siegel-Svensson:");
    Println [VString Demo.template]],
   inr Return)
  /\ forall ev, In ev (trace (main Demo.env Demo.core Demo.missingFile)) ->
                isEngineCall ev = false.
Proof.
  exact (@undecodable_file_prints_template Demo.env Demo.core Demo.missingFile
           [] (list_byte_of_string Demo.template)
           (Some (GoError "open: no such file or directory"))
           term.zero (GoError "unexpected end of JSON input")
           eq_refl eq_refl eq_refl).
Defined.

Lemma equal_dates_witness :
  SpecCore.generate Demo.yearFraction (mkTime 2024 1 1) (mkTime 2024 1 1) 1
                    "30E360"
  = Raise InvalidScheduleError
  /\ result (main Demo.env Demo.specCore Demo.sameDay)
     = inr (Panicked InvalidScheduleError).
Proof.
  destruct (@equal_dates_fail_in_schedule_generation
              Demo.yearFraction Demo.discountFactor
              (fun _ _ _ => Value 0.875%float)
              (fun _ _ => Value (4.75%float, None))
              (fun _ _ _ => Value (12.5%float, None))
              Demo.env Demo.sameDay
              (list_byte_of_string Demo.fileText) None Demo.curve
              (mkTime 2024 1 1) (mkTime 2024 1 1)
              eq_refl eq_refl eq_refl eq_refl eq_refl) as (Hg & _ & Hm).
  split; [exact Hg |].
  exact (f_equal result Hm).
Defined.



Lemma flags_reach_engine_witness :
  exists r,
    In (CallPricing
          {| bond.Schedule :=
               {| maturity.Settlement := mkTime 2024 1 1;
                  maturity.Maturity := mkTime 2025 1 1;
                  maturity.Frequency := 0;
                  maturity.Basis := "no such convention" |};
             bond.Coupon := (-5)%float;
             bond.Redemption := (-100)%float |}
          1e9%float term.zero r)
       (trace (main Demo.env Demo.core Demo.outOfRange)).
Proof.
  exact (@flags_reach_engine_unchecked Demo.env Demo.core Demo.outOfRange
           (list_byte_of_string "{}") None term.zero
           (mkTime 2024 1 1) (mkTime 2025 1 1)
           eq_refl eq_refl eq_refl eq_refl).
Defined.


End Witnesses.

(* ================================================================== *)
(** * Further properties of the front end *)

(** Forward execution of [main]: the run is named, executed once, and the
    goal is left with one case for each way the run can go, the run replaced
    by its trace and result. *)
Ltac run_step_in H :=
  match type of H with
  | context [CLI.call _ ?r] =>
      lazymatch r with
      | Value _ => fail
      | Raise _ => fail
      | _ => let E := fresh "E" in destruct r as [[] | ?] eqn:E
      end
  | context [CLI.call _ ?r] =>
      lazymatch r with
      | Value _ => fail
      | Raise _ => fail
      | _ => let E := fresh "E" in destruct r eqn:E
      end
  | context [match ?x with _ => _ end] =>
      lazymatch x with
      | context [match _ with _ => _ end] => fail
      | context [CLI.bind] => fail
      | context [CLI.call] => fail
      | _ => let E := fresh "E" in destruct x eqn:E
      end
  end.

Ltac run_main env core cl :=
  let r := fresh "run" in
  let H := fresh "Hrun" in
  remember (CLI.main env core cl) as r eqn:H;
  unfold CLI.main, CLI.report, CLI.yields in H; cbv zeta in H;
  repeat (cbn [CLI.bind CLI.call CLI.emit CLI.ret CLI.stop CLI.panic
               CLI.logFatal CLI.logPrintln CLI.fmtPrintln CLI.fmtPrintf
               fst snd app] in H;
          try run_step_in H);
  subst r; cbn [CLI.trace CLI.result fst snd].

(** Backward execution, in two steps.  [run_locate] names the run and goes
    from an event [Hin] of its trace to the places where the event can have
    been recorded; once the impossible places are gone, [run_finish] executes
    the rest of the run and replaces it by its trace and result. *)
Ltac run_locate Hin Hrun env core cl :=
  let r := fresh "run" in
  remember (CLI.main env core cl) as r eqn:Hrun in |- *;
  unfold CLI.main, CLI.report, CLI.yields in Hrun, Hin;
  cbv zeta in Hrun, Hin;
  where_in Hin.

Ltac run_finish Hrun :=
  repeat match goal with
         | Hr : ?x = Value _ |- _ => rewrite Hr in Hrun
         end;
  repeat (cbn [CLI.bind CLI.call CLI.emit CLI.ret CLI.stop CLI.panic
               CLI.logFatal CLI.logPrintln CLI.fmtPrintln CLI.fmtPrintf
               fst snd app] in Hrun;
          try run_step_in Hrun);
  match type of Hrun with ?r = _ => subst r end;
  cbn [CLI.trace CLI.result fst snd].

(** An event is not in a trace all of whose events differ from it. *)
Lemma not_in_cons (A : Type) (x y : A) (l : list A) :
  x <> y -> ~ In x l -> ~ In x (y :: l).
Proof. intros Hn Hl [H | H]; [now apply Hn | now apply Hl]. Qed.

Ltac not_in :=
  repeat (apply not_in_cons; [discriminate |]); apply in_nil.

Section ErrorPaths.

Import GoTime CLI Run.
Local Open Scope string_scope.

(** X1.  A date flag that does not parse ends the run with [log.Fatal]:
    after the read (and the log line of a failed read) the error is logged,
    the process exits with status 1, and the engine is never called.  The
    settlement date is examined first; when it is malformed the maturity
    flag is not looked at. *)
Theorem malformed_date_is_fatal :
  forall (env : Env) (core : Core) (cl : CmdLine)
         (data : list Byte.byte) (rerr : option error)
         (nss : term.NelsonSiegelSvensson) (q m : Time) (e : error),
    ioutilReadFile env (fileFlag (flagParse env cl)) = (data, rerr) ->
    jsonUnmarshal env data term.zero = (nss, None) ->
    Parse (settlementFlag (flagParse env cl)) = (q, Some e)
    \/ (Parse (settlementFlag (flagParse env cl)) = (q, None) /\
        Parse (maturityFlag (flagParse env cl)) = (m, Some e)) ->
    main env core cl =
    (ReadFile (fileFlag (flagParse env cl)) data rerr
       :: logged rerr ++ [LogFatal e],
     inr Exit1).
Proof.
  intros env core cl data rerr nss q m e Hrd Hum [Hq | [Hq Hm]];
    unfold main; cbv zeta; rewrite Hrd, Hum, Hq; [| rewrite Hm];
    destruct rerr; reflexivity.
Qed.

(** X2.  A read error alone does not stop the run: when [ioutil.ReadFile]
    reports an error but the data it returned decodes, the error is logged
    and the run goes on to price the bond against the decoded curve. *)
Theorem read_error_alone_does_not_stop_the_run :
  forall (env : Env) (core : Core) (cl : CmdLine)
         (data : list Byte.byte) (e0 : error)
         (nss : term.NelsonSiegelSvensson) (q m : Time),
    ioutilReadFile env (fileFlag (flagParse env cl)) = (data, Some e0) ->
    jsonUnmarshal env data term.zero = (nss, None) ->
    Parse (settlementFlag (flagParse env cl)) = (q, None) ->
    Parse (maturityFlag (flagParse env cl)) = (m, None) ->
    exists rest,
      trace (main env core cl) =
      ReadFile (fileFlag (flagParse env cl)) data (Some e0)
        :: LogPrintln (VError e0)
        :: CallPricing (bondOf (flagParse env cl) q m)
                       (spread (flagParse env cl)) nss
                       (Pricing core (bondOf (flagParse env cl) q m)
                                (spread (flagParse env cl)) nss)
        :: rest.
Proof.
  intros env core cl data e0 nss q m Hrd Hum Hq Hm.
  erewrite main_run_priced by eassumption.
  destruct (report_starts_with_pricing core (flagParse env cl) q m nss)
    as (rest & Hrest).
  exists rest. cbn [trace fst logged app]. now rewrite Hrest.
Qed.

End ErrorPaths.

Section Order.

Import GoTime CLI Run.
Local Open Scope string_scope.

(** X4.  Whatever a run does, it calls the engine in one fixed order and
    each entry point at most once: the calls made are an initial part of
    Pricing, YearsToMaturity, Duration, Accrued, IRR, Spread. *)
Theorem engine_calls_in_fixed_order :
  forall (env : Env) (core : Core) (cl : CmdLine),
  exists rest,
    callOrder = (kinds (trace (main env core cl)) ++ rest)%list.
Proof.
  intros env core cl.
  run_main env core cl; cbn; eexists; reflexivity.
Qed.

(** X3.  An error returned by a solver is fatal.  If [bonds.IRR] or
    [bonds.Spread] returns an error, the run logs it with [log.Fatal] as its
    last act and exits with status 1, and the implied-spread line is never
    printed; if it was [bonds.IRR] that failed, [bonds.Spread] is not called
    and the yield line is not printed either. *)
Theorem solver_error_is_fatal :
  forall (env : Env) (core : Core) (cl : CmdLine) (ev : event) (e : error),
    In ev (trace (main env core cl)) ->
    solverError ev = Some e ->
    result (main env core cl) = inr Exit1
    /\ lastEvent (trace (main env core cl)) = Some (LogFatal e)
    /\ (forall args, ~ In (Printf lineSpread args) (trace (main env core cl)))
    /\ (kindOf ev = Some KIRR ->
        (forall args, ~ In (Printf lineYield args) (trace (main env core cl)))
        /\ kinds (trace (main env core cl))
           = [KPricing; KYearsToMaturity; KDuration; KAccrued; KIRR]).
Proof.
  intros env core cl ev e Hin Herr.
  run_locate Hin Hrun env core cl; subst ev;
    cbn [solverError] in Herr; try discriminate Herr.
  all: run_finish Hrun; try congruence; cbn in Herr.
  all: repeat match type of Herr with
              | context [match ?x with _ => _ end] => destruct x
              end; try discriminate Herr.
  all: inversion Herr; subst; clear Herr.
  all: split; [reflexivity |]; split; [reflexivity |];
       split; [intros args; not_in |].
  all: cbn [kindOf]; intros Hk; try discriminate Hk.
  all: split; [intros args; not_in | reflexivity].
Qed.

End Order.

Section Arguments.

Import GoTime CLI Run.
Local Open Scope string_scope.

Lemma reachesPricing_functional (env : Env) (cl : CmdLine)
    (b1 b2 : bond.Straight) (n1 n2 : term.NelsonSiegelSvensson) :
  reachesPricing env cl b1 n1 -> reachesPricing env cl b2 n2 ->
  b1 = b2 /\ n1 = n2.
Proof.
  intros (d1 & r1 & q1 & m1 & Hrd1 & Hum1 & Hq1 & Hm1 & ->)
         (d2 & r2 & q2 & m2 & Hrd2 & Hum2 & Hq2 & Hm2 & ->).
  rewrite Hrd1 in Hrd2. injection Hrd2 as <- <-.
  rewrite Hum1 in Hum2. injection Hum2 as <-.
  rewrite Hq1 in Hq2. injection Hq2 as <-.
  rewrite Hm1 in Hm2. injection Hm2 as <-.
  split; reflexivity.
Qed.

Lemma engine_call_arguments (env : Env) (core : Core) (cl : CmdLine)
    (e : event) (b : bond.Straight) :
  In e (trace (main env core cl)) ->
  engineBond e = Some b ->
  exists nss,
    reachesPricing env cl b nss
    /\ (forall n, engineCurve e = Some n -> n = nss)
    /\ (forall s, engineSpread e = Some s -> s = spread (flagParse env cl)).
Proof.
  intros Hin Hb.
  where_in Hin; subst e; cbn in Hb; try discriminate Hb.
  all: injection Hb as <-.
  all: eexists; split; [unfold reachesPricing; eauto 10 |].
  all: split; cbn; intros x Hx; try discriminate Hx; now injection Hx.
Qed.

(** X5.  All engine calls of a run are about the same bond and the same
    curve: any two calls were given equal bonds, any two calls that take a
    curve were given equal curves, and every call that takes a spread was
    given the value of the spread flag. *)
Theorem engine_calls_share_arguments :
  forall (env : Env) (core : Core) (cl : CmdLine)
         (e1 e2 : event) (b1 b2 : bond.Straight),
    In e1 (trace (main env core cl)) ->
    In e2 (trace (main env core cl)) ->
    engineBond e1 = Some b1 ->
    engineBond e2 = Some b2 ->
    b1 = b2
    /\ (forall n1 n2, engineCurve e1 = Some n1 -> engineCurve e2 = Some n2 ->
                      n1 = n2)
    /\ (forall s, engineSpread e1 = Some s -> s = spread (flagParse env cl)).
Proof.
  intros env core cl e1 e2 b1 b2 H1 H2 Hb1 Hb2.
  destruct (engine_call_arguments env core cl e1 H1 Hb1)
    as (n1 & R1 & C1 & S1).
  destruct (engine_call_arguments env core cl e2 H2 Hb2)
    as (n2 & R2 & C2 & _).
  destruct (reachesPricing_functional R1 R2) as [-> ->].
  split; [reflexivity |]. split; [| exact S1].
  intros x y Hx Hy. rewrite (C1 x Hx), (C2 y Hy). reflexivity.
Qed.

(** X6.  The report shows what the engine returned, unchanged: the number on
    each of the lines for years to maturity, duration, dirty price, accrued
    interest, clean price, yield and implied spread is the value the matching
    engine call returned for the bond and curve of this run, and the number
    on the price line is the target price given to the solvers. *)
Theorem report_shows_engine_results :
  forall (env : Env) (core : Core) (cl : CmdLine) (fmt : string) (v : float64),
    In (Printf fmt [VFloat v]) (trace (main env core cl)) ->
    exists b nss dirty clean,
      reachesPricing env cl b nss
      /\ Pricing core b (spread (flagParse env cl)) nss = Value (dirty, clean)
      /\ (fmt = lineDirty -> v = dirty)
      /\ (fmt = lineClean -> v = clean)
      /\ (fmt = lineYears -> YearsToMaturity core b = Value v)
      /\ (fmt = lineDuration ->
          Duration core b (spread (flagParse env cl)) nss = Value v)
      /\ (fmt = lineAccrued -> Accrued core b = Value v)
      /\ (fmt = linePrice -> targetChosen env core cl v)
      /\ (fmt = lineYield ->
          exists p, targetChosen env core cl p /\
                    IRR core p b = Value (v, None))
      /\ (fmt = lineSpread ->
          exists p, targetChosen env core cl p /\
                    Spread core p b nss = Value (v, None)).
Proof.
  intros env core cl fmt v Hin.
  where_in Hin; try discriminate Hin; injection Hin as -> ->.
  all: match goal with
       | Hp : Pricing _ _ _ _ = Value (?d, ?c) |- _ =>
           eexists _, _, d, c
       end.
  all: split; [unfold reachesPricing; eauto 10 |].
  all: split; [eassumption |].
  all: assert (T : forall p, p = (if (0 <? price (flagParse env cl))%float
                                  then price (flagParse env cl)
                                  else _) ->
                             targetChosen env core cl p)
         by (intros p ->; eexists _, _, _, _;
             split; [unfold reachesPricing; eauto 10 |];
             split; [eassumption | reflexivity]).
  all: repeat split; intros Hf; try discriminate Hf; try reflexivity;
       try assumption.
  all: try (apply T; reflexivity).
  all: eexists; (split; [apply T; reflexivity | assumption]).
Qed.

End Arguments.

Section Endings.

Import GoTime CLI Run.
Local Open Scope string_scope.

(** X7.  The header above the yields tells which price they are for.  In a
    run whose file decoded and whose dates parsed: if "Yields for the quoted
    price:" is printed, the quote flag is strictly positive, the other
    header is not printed, and every solver call is given the quote; if
    "Yields for the calculated clean price:" is printed, the quote flag is
    not strictly positive, the other header is not printed, and every solver
    call is given the clean price that [Pricing] returned. *)
Theorem header_names_the_target :
  forall (env : Env) (core : Core) (cl : CmdLine)
         (b : bond.Straight) (nss : term.NelsonSiegelSvensson) (h : event),
    reachesPricing env cl b nss ->
    In h (trace (main env core cl)) ->
    h = headerQuoted \/ h = headerCalculated ->
    exists dirty clean,
      Pricing core b (spread (flagParse env cl)) nss = Value (dirty, clean)
      /\ (h = headerQuoted ->
          (0 <? price (flagParse env cl))%float = true
          /\ ~ In headerCalculated (trace (main env core cl))
          /\ forall e p, In e (trace (main env core cl)) ->
                         solverTarget e = Some p ->
                         p = price (flagParse env cl))
      /\ (h = headerCalculated ->
          (0 <? price (flagParse env cl))%float = false
          /\ ~ In headerQuoted (trace (main env core cl))
          /\ forall e p, In e (trace (main env core cl)) ->
                         solverTarget e = Some p ->
                         p = clean).
Proof.
  intros env core cl b nss h R Hin Hh.
  run_locate Hin Hrun env core cl; subst h;
    try (destruct Hh as [Hh | Hh]; discriminate Hh).
  all: try (destruct R as (d & r & q & m & Hrd & Hum & _); congruence).
  all: clear Hh; run_finish Hrun.
  all: match goal with
       | Hp : Pricing _ ?b' _ ?n' = Value (?d, ?c) |- _ =>
           assert (R' : reachesPricing env cl b' n')
             by (unfold reachesPricing; eauto 10);
           destruct (reachesPricing_functional R R') as [-> ->];
           exists d, c
       end.
  all: (split; [eassumption |]).
  all: split; intros Hq; try discriminate Hq.
  all: (split; [first [assumption | reflexivity] |]).
  all: (split; [unfold headerQuoted, headerCalculated; not_in |]).
  all: intros ev tgt He Hp; cbn [In] in He.
  all: repeat (destruct He as [<- | He]; [cbn in Hp; try discriminate Hp |]);
       try contradiction.
  all: now injection Hp.
Qed.

(** X8.  How a run ends shows in its last event.  The run reaches the end
    of [main] exactly when its last act is printing the implied-spread line;
    it returns early exactly when its last act is printing the template; it
    exits with status 1 exactly when its last act is [log.Fatal]; and
    [log.Fatal] is never followed by anything. *)
Theorem ending_shows_in_last_event :
  forall (env : Env) (core : Core) (cl : CmdLine),
    (result (main env core cl) = inl tt <->
     exists s, lastEvent (trace (main env core cl))
               = Some (Printf lineSpread [VFloat s]))
    /\ (result (main env core cl) = inr Return <->
        exists args, lastEvent (trace (main env core cl))
                     = Some (Println args))
    /\ (result (main env core cl) = inr Exit1 <->
        exists e, lastEvent (trace (main env core cl)) = Some (LogFatal e))
    /\ filter isLogFatal (removelast (trace (main env core cl))) = [].
Proof.
  intros env core cl.
  run_main env core cl.
  all: cbn.
  all: repeat split; try reflexivity.
  all: try (intros H; discriminate H).
  all: try (intros [x H]; discriminate H).
  all: try (intros _; eexists; reflexivity).
Qed.

End Endings.

(* ================================================================== *)
(** * The default dates *)

Section DefaultDates.

Import GoTime CLI Run.
Local Open Scope string_scope.
Local Open Scope Z_scope.

Lemma digitVal_digit (n : Z) : digitVal (digit n) = Some (n mod 10).
Proof.
  unfold digitVal, digit.
  assert (Hm : 0 <= n mod 10 < 10) by (apply Z.mod_pos_bound; lia).
  rewrite nat_ascii_embedding by lia.
  rewrite Nat2Z.inj_add, Z2Nat.id by lia.
  change (Z.of_nat 48) with 48.
  replace ((48 <=? 48 + n mod 10) && (48 + n mod 10 <=? 57))%bool with true
    by (symmetry; apply andb_true_intro; split; apply Z.leb_le; lia).
  f_equal. lia.
Qed.

Lemma atoi_pad2 (n : Z) :
  0 <= n <= 99 -> atoi 0 [digit (n / 10); digit n] = Some n.
Proof.
  intros Hn. cbn [atoi]. rewrite !digitVal_digit. f_equal.
  Z.div_mod_to_equations. lia.
Qed.

Lemma atoi_pad4 (n : Z) :
  0 <= n <= 9999 ->
  atoi 0 [digit (n / 1000); digit (n / 100); digit (n / 10); digit n] = Some n.
Proof.
  intros Hn. cbn [atoi]. rewrite !digitVal_digit. f_equal.
  Z.div_mod_to_equations. lia.
Qed.

Lemma daysIn_bound (y m : Z) : 28 <= daysIn y m <= 31.
Proof.
  unfold daysIn.
  destruct (m =? 2); [destruct (isLeap y); lia |].
  destruct ((m =? 4) || (m =? 6) || (m =? 9) || (m =? 11))%bool; lia.
Qed.

(** Parsing what [Format] printed gives the date back. *)
Lemma Parse_Format (t : Time) :
  validDate t -> Parse (Format t) = (t, None).
Proof.
  destruct t as [y m d]. unfold validDate; cbn [year month day].
  intros (Hy & Hm & Hd).
  pose proof (daysIn_bound y m) as Hb.
  unfold Parse, Format, pad4, pad2; cbn [year month day].
  cbn [String.append list_ascii_of_string].
  cbn [Ascii.eqb Bool.eqb andb].
  rewrite atoi_pad4, !atoi_pad2 by lia.
  replace ((1 <=? m) && (m <=? 12) && (1 <=? d) && (d <=? daysIn y m))%bool
    with true; [reflexivity |].
  symmetry. repeat (apply andb_true_intro; split); apply Z.leb_le; lia.
Qed.

Lemma daysIn_next_year (y m d : Z) :
  1 <= m <= 12 -> 1 <= d <= daysIn y m -> daysIn (y + 1) m < d ->
  m = 2 /\ d = 29 /\ daysIn (y + 1) m = 28.
Proof.
  unfold daysIn. intros Hm Hd Hlt.
  destruct (m =? 2) eqn:E2.
  - apply Z.eqb_eq in E2.
    destruct (isLeap y), (isLeap (y + 1)); lia.
  - destruct ((m =? 4) || (m =? 6) || (m =? 9) || (m =? 11))%bool; lia.
Qed.

(** One year on from a date that exists is a date that exists. *)
Lemma AddDate_valid (t : Time) :
  validDate t -> year t < 9999 -> validDate (AddDate t 1).
Proof.
  destruct t as [y m d]. unfold validDate, AddDate; cbn [year month day].
  intros (Hy & Hm & Hd) Hlt.
  destruct (d <=? daysIn (y + 1) m) eqn:E; cbn [year month day].
  - apply Z.leb_le in E. lia.
  - apply Z.leb_gt in E.
    destruct (daysIn_next_year y Hm Hd E) as (-> & -> & ->).
    cbn. lia.
Qed.

Lemma ltb_AddDate (a b : Time) :
  leb a b = true -> ltb a (AddDate b 1) = true.
Proof.
  unfold leb, ltb, compare, AddDate.
  destruct a as [ya ma da], b as [yb mb db]; cbn [year month day].
  intros H.
  assert (Hy : ya <= yb).
  { destruct (Z.compare_spec ya yb); [lia | lia | discriminate H]. }
  assert (E : (ya ?= yb + 1) = Lt) by (apply Z.compare_lt_iff; lia).
  destruct (db <=? daysIn (yb + 1) mb); cbn [year month day];
    now rewrite E.
Qed.

(** X9.  The default dates always work.  With neither date flag given and a
    clock that shows dates that exist (years 0 to 9998), both default
    strings parse, so the run cannot end in [log.Fatal] on a date: the bond
    is settled on the day the clock showed and matures on that day moved one
    year on; and when the two clock readings are in order, the maturity is
    strictly after the settlement. *)
Theorem default_dates_parse :
  forall (env : Env) (cl : CmdLine),
    argSettlement cl = None ->
    argMaturity cl = None ->
    validDate (now1 env) ->
    validDate (now2 env) ->
    year (now2 env) < 9999 ->
    Parse (settlementFlag (flagParse env cl)) = (now1 env, None)
    /\ Parse (maturityFlag (flagParse env cl)) = (AddDate (now2 env) 1, None)
    /\ (leb (now1 env) (now2 env) = true ->
        ltb (now1 env) (AddDate (now2 env) 1) = true).
Proof.
  intros env cl Hs Hm V1 V2 Hy.
  unfold flagParse; cbn [settlementFlag maturityFlag].
  rewrite Hs, Hm; cbn [orDefault].
  split; [now apply Parse_Format |].
  split; [apply Parse_Format; now apply AddDate_valid |].
  apply ltb_AddDate.
Qed.

End DefaultDates.

(* ================================================================== *)
(** * The further properties at concrete runs *)

Section MoreWitnesses.

Import GoTime CLI Run.
Local Open Scope string_scope.

Ltac find_event := vm_compute; repeat (first [left; reflexivity | right]).

Lemma malformed_date_witness :
  main Demo.env Demo.core Cases.badSettlement =
  ([ReadFile "term.json" (list_byte_of_string Demo.fileText) None;
    LogFatal rangeError],
   inr Exit1).
Proof.
  exact (@malformed_date_is_fatal Demo.env Demo.core Cases.badSettlement
           (list_byte_of_string Demo.fileText) None Demo.curve
           zeroTime zeroTime rangeError eq_refl eq_refl (or_introl eq_refl)).
Defined.

Lemma read_error_witness :
  exists rest,
    trace (main Cases.flakyEnv Demo.core Demo.dated) =
    ReadFile "term.json" (list_byte_of_string Demo.fileText)
             (Some (GoError "read term.json: input/output error"))
      :: LogPrintln (VError (GoError "read term.json: input/output error"))
      :: CallPricing Cases.datedBond 0%float Demo.curve
                     (Value (101.5%float, 100.25%float))
      :: rest.
Proof.
  exact (@read_error_alone_does_not_stop_the_run
           Cases.flakyEnv Demo.core Demo.dated
           (list_byte_of_string Demo.fileText)
           (GoError "read term.json: input/output error") Demo.curve
           (mkTime 2024 1 1) (mkTime 2025 1 1)
           eq_refl eq_refl eq_refl eq_refl).
Defined.

Lemma solver_error_witness :
  result (main Demo.env Cases.irrFails Demo.dated) = inr Exit1
  /\ lastEvent (trace (main Demo.env Cases.irrFails Demo.dated))
     = Some (LogFatal NoRootError).
Proof.
  destruct (@solver_error_is_fatal Demo.env Cases.irrFails Demo.dated
              (CallIRR 99.5%float Cases.datedBond
                       (Value (0%float, Some NoRootError)))
              NoRootError) as (H1 & H2 & _).
  - find_event.
  - reflexivity.
  - split; assumption.
Defined.

Lemma shared_arguments_witness :
  Cases.datedBond = Cases.datedBond
  /\ (forall n1 n2,
         engineCurve (CallPricing Cases.datedBond 0%float Demo.curve
                        (Value (101.5%float, 100.25%float))) = Some n1 ->
         engineCurve (CallSpread 99.5%float Cases.datedBond Demo.curve
                        (Value (12.5%float, None))) = Some n2 ->
         n1 = n2)
  /\ (forall s,
         engineSpread (CallPricing Cases.datedBond 0%float Demo.curve
                         (Value (101.5%float, 100.25%float))) = Some s ->
         s = spread (flagParse Demo.env Demo.dated)).
Proof.
  apply (@engine_calls_share_arguments Demo.env Demo.core Demo.dated).
  - find_event.
  - find_event.
  - reflexivity.
  - reflexivity.
Defined.

Lemma report_witness :
  exists p, targetChosen Demo.env Demo.core Demo.dated p /\
            IRR Demo.core p Cases.datedBond = Value (4.75%float, None).
Proof.
  destruct (@report_shows_engine_results Demo.env Demo.core Demo.dated
              lineYield 4.75%float)
    as (b & nss & dirty & clean & R & _ & _ & _ & _ & _ & _ & _ & HY & _).
  - find_event.
  - destruct (HY eq_refl) as (p & T & HI). exists p. split; [exact T |].
    exact HI.
Defined.

Lemma header_witness :
  exists dirty clean,
    Pricing Demo.core Cases.datedBond
            (spread (flagParse Demo.env Demo.dated)) Demo.curve
    = Value (dirty, clean)
    /\ (0 <? price (flagParse Demo.env Demo.dated))%float = true.
Proof.
  destruct (@header_names_the_target Demo.env Demo.core Demo.dated
              Cases.datedBond Demo.curve headerQuoted)
    as (dirty & clean & HP & HQ & _).
  - exists (list_byte_of_string Demo.fileText), None,
           (mkTime 2024 1 1), (mkTime 2025 1 1).
    repeat split.
  - find_event.
  - now left.
  - exists dirty, clean. split; [exact HP |]. exact (proj1 (HQ eq_refl)).
Defined.

Lemma default_dates_witness :
  Parse (settlementFlag (flagParse Demo.env Demo.noFlags))
  = (mkTime 2024 3 15, None)
  /\ Parse (maturityFlag (flagParse Demo.env Demo.noFlags))
     = (mkTime 2025 3 15, None)
  /\ (leb (mkTime 2024 3 15) (mkTime 2024 3 15) = true ->
      ltb (mkTime 2024 3 15) (AddDate (mkTime 2024 3 15) 1) = true).
Proof.
  apply (@default_dates_parse Demo.env Demo.noFlags).
  - reflexivity.
  - reflexivity.
  - unfold validDate; cbn; lia.
  - unfold validDate; cbn; lia.
  - cbn; lia.
Defined.

End MoreWitnesses.
